(** * The Pocket Casts icon component and the documentation front matter

    A shallow embedding of [src/components/icons/pocket-casts.tsx] and of the
    leading lines of the documentation pages under [content/docs].

    The component is a React function component: a JavaScript function from a
    props object to a React element.  JavaScript evaluation is embedded as a
    computation over the one mutable object the module owns (the component's
    function object, whose [displayName] property the module assigns) that
    either completes normally or throws. *)

From Stdlib Require Import String Ascii List.
From stdpp Require Import base option strings gmap.
Import ListNotations.

Set Warnings "-register-all".
Local Open Scope string_scope.

(** ** JavaScript values and objects *)

(** The primitive values a property of a props object can hold here. *)
Inductive JsVal : Type :=
  | VUndefined
  | VNull
  | VBool (b : bool)
  | VString (s : string).

#[global] Instance JsVal_eq_dec : EqDecision JsVal.
Proof. solve_decision. Defined.

(** A plain object: a finite map from property names to values. *)
Abbreviation JsObject := (gmap string JsVal).

(** Property read [o.k]: a missing property reads as [undefined]. *)
Definition get (o : JsObject) (k : string) : JsVal :=
  default VUndefined (o !! k).

(** ** React elements

    [<type a1=v1 ... an=vn> children </type>], the attributes in source
    order.  Every attribute value of the component is a string. *)
Inductive Element : Type :=
  | Elem (type : string) (attrs : list (string * string))
         (children : list Element).

Definition jsx := Elem.

Definition elem_type (e : Element) : string :=
  match e with Elem t _ _ => t end.

Definition elem_attrs (e : Element) : list (string * string) :=
  match e with Elem _ a _ => a end.

Definition elem_children (e : Element) : list Element :=
  match e with Elem _ _ c => c end.

(** First binding of an attribute name. *)
Fixpoint lookup_attr (k : string) (l : list (string * string)) : option string :=
  match l with
  | [] => None
  | (k', v) :: rest => if String.eqb k k' then Some v else lookup_attr k rest
  end.

Definition attr (k : string) (e : Element) : option string :=
  lookup_attr k (elem_attrs e).

(** The attributes of an element other than [k]. *)
Definition attrs_without (k : string) (e : Element) : list (string * string) :=
  List.filter (fun kv => negb (String.eqb k (fst kv))) (elem_attrs e).

(** The element with attribute [k] dropped from the root. *)
Definition without_attr (k : string) (e : Element) : Element :=
  Elem (elem_type e) (attrs_without k e) (elem_children e).

(** ** Evaluation: completions over the component's function object *)

Inductive Completion (A : Type) : Type :=
  | Normal (a : A)
  | Throw (e : JsVal).
Arguments Normal {A} a.
Arguments Throw {A} e.

(** A computation reads and writes the own properties of the component's
    function object and ends in a completion. *)
Definition Eval (A : Type) : Type := JsObject -> Completion A * JsObject.

#[global] Instance Eval_ret : MRet Eval := fun A a s => (Normal a, s).

#[global] Instance Eval_bind : MBind Eval := fun A B f m s =>
  match m s with
  | (Normal a, s') => f a s'
  | (Throw e, s') => (Throw e, s')
  end.

(** [F.k = v] on the function object. *)
Definition assign_property (k : string) (v : JsVal) : Eval unit :=
  fun s => (Normal tt, <[k := v]> s).

Definition completion {A} (r : Completion A * JsObject) : Completion A := fst r.
Definition final_store {A} (r : Completion A * JsObject) : JsObject := snd r.

(** ** [src/components/icons/pocket-casts.tsx] *)

(** The [d] attribute of the path. *)
Definition path_d : string :=
  "M128 20C187.65 20 236 68.3503 236 128C236 187.65 187.65 236 128 236C68.3503 236 20 187.65 20 128C20 68.3503 68.3503 20 128 20ZM128 211.997C81.6072 211.997 44.003 174.393 44.003 128C44.003 81.6072 81.6072 44.003 128 44.003V64.9955C115.541 64.9955 103.361 68.6901 93.001 75.6121C82.6412 82.5341 74.5667 92.3726 69.7983 103.883C65.03 115.394 63.782 128.061 66.2122 140.281C68.6425 152.501 74.6418 163.726 83.4515 172.537C92.2612 181.348 103.486 187.348 115.706 189.78C127.926 192.211 140.592 190.965 152.104 186.198C163.615 181.43 173.454 173.357 180.377 162.998C187.301 152.639 190.996 140.459 190.998 128H211.997C211.997 174.4 174.393 211.997 128 211.997ZM77.5977 128C77.5977 114.632 82.908 101.812 92.3602 92.3602C101.812 82.908 114.632 77.5978 128 77.5978V95.924C121.658 95.9253 115.459 97.8071 110.186 101.331C104.913 104.856 100.804 109.864 98.3773 115.724C95.9509 121.584 95.3164 128.031 96.554 134.251C97.7916 140.471 100.846 146.185 105.33 150.67C109.815 155.154 115.529 158.208 121.749 159.446C127.969 160.684 134.416 160.049 140.276 157.623C146.136 155.196 151.144 151.087 154.669 145.814C158.193 140.541 160.075 134.342 160.076 128H178.402C178.402 141.368 173.092 154.188 163.64 163.64C154.188 173.092 141.368 178.402 128 178.402C114.632 178.402 101.812 173.092 92.3602 163.64C82.908 154.188 77.5977 141.368 77.5977 128Z".

Section Component.

(** [import { cn } from "@/lib/utils"]: the class-name helper, of type
    [(...inputs: ClassValue[]) => string].  Its module is not part of the
    component's file, so the component is embedded over any such function. *)
Variable cn : list JsVal -> string.

(** [({ className }) => <svg ...><path .../></svg>] *)
Definition PocketCastsIcon (props : JsObject) : Eval Element :=
  let className := get props "className" in
  mret (jsx "svg"
          [ ("xmlns", "http://www.w3.org/2000/svg");
            ("viewBox", "0 0 256 256");
            ("className", cn [VString "fill-current"; className]) ]
          [ jsx "path"
              [ ("fillRule", "evenodd");
                ("clipRule", "evenodd");
                ("d", path_d) ]
              [] ]).

(** [PocketCastsIcon.displayName = "PocketCastsIcon"], the one statement
    of the module after the component's declaration. *)
Definition module_body : Eval unit :=
  assign_property "displayName" (VString "PocketCastsIcon").

End Component.

(** ** The imports of the component's file *)

Record Import : Type := mkImport {
  import_names : list string;
  import_from : string;
  import_type_only : bool
}.

(** Lines 1 to 3 of the file. *)
Definition pocket_casts_imports : list Import :=
  [ mkImport ["React"] "react" false;
    mkImport ["Icon"] "@/components/icons" true;
    mkImport ["cn"] "@/lib/utils" false ].

(** A module specifier names a module of the repository when it is relative
    or goes through the [@/] alias of the repository's own [src] tree (the
    component lives in [src/components/icons], the directory it imports as
    [@/components/icons]). *)
Definition in_repo (specifier : string) : bool :=
  String.prefix "@/" specifier
  || String.prefix "./" specifier
  || String.prefix "../" specifier.

(** The in-repo modules whose definitions exist at run time in the file. *)
Definition in_repo_runtime_imports (l : list Import) : list Import :=
  List.filter (fun i => in_repo (import_from i) && negb (import_type_only i)) l.

(** ** [@/lib/utils] *)

Module Utils.

(** The class name a class value contributes, if any. *)
Definition class_name (v : JsVal) : option string :=
  match v with
  | VString s => if String.eqb s "" then None else Some s
  | _ => None
  end.

(** Modelled from the spec: the class-name helper [cn] of [@/lib/utils],
    whose source is not among the files of the component.  The spec calls
    the component's input a styling class string and has the helper
    contribute, for an absent class, the base class and nothing else: the
    class values that are present are joined by single spaces, absent and
    empty ones contribute nothing. *)
Definition cn (inputs : list JsVal) : string :=
  String.concat " " (omap class_name inputs).

End Utils.

(** ** The documentation pages *)

Definition dquote : string := String (ascii_of_nat 34) EmptyString.

(** The first five lines of [content/docs/400-guides/550-scheduling/200-repetition.mdx]. *)
Definition repetition_page : list string :=
  [ "---";
    "title: Repetition";
    "excerpt: Discover the significance of repetition in effect-driven software development with functions like `repeat` and `repeatOrElse`. Explore repeat policies, which enable you to execute effects multiple times according to specific criteria. Learn the syntax and examples of `repeat` and `repeatOrElse` for effective handling of repeated actions, including optional fallback strategies for errors.";
    "bottomNavigation: pagination";
    "---" ].

(** The first five lines of [content/docs/400-guides/800-schema/350-annotations.mdx]. *)
Definition annotations_page : list string :=
  [ "---";
    "title: Annotations";
    "excerpt: Annotations";
    "bottomNavigation: pagination";
    "---" ].

(** The first five lines of [content/docs/400-guides/800-schema/450-error-formatters.mdx]. *)
Definition error_formatters_page : list string :=
  [ "---";
    "title: Error Formatters";
    "excerpt: Error Formatters";
    "bottomNavigation: pagination";
    "---" ].

(** The first five lines of [content/docs/400-guides/800-schema/700-schema-to-x/200-json-schema.mdx]. *)
Definition json_schema_page : list string :=
  [ "---";
    "title: JSON Schema";
    "excerpt: JSON Schema";
    "bottomNavigation: pagination";
    "---" ].

(** The first five lines of [content/docs/700-other/300-data-types/redacted.mdx]. *)
Definition redacted_page : list string :=
  [ "---";
    "title: Redacted";
    ("excerpt: The Redacted module in " ++ dquote ++ "effect" ++ dquote ++ " provides tools to securely handle sensitive data within applications, preventing accidental exposure in logs or error messages. It offers functions to create, manage, and compare `Redacted` instances, ensuring sensitive information is protected and managed appropriately.");
    "bottomNavigation: pagination";
    "---" ].

(** The first five lines of the schema guide's Getting Started page. *)
Definition getting_started_page : list string :=
  [ "---";
    "title: Getting Started";
    "excerpt: Getting Started";
    "bottomNavigation: pagination";
    "---" ].

(** The first five lines of the schema guide's Error Messages page. *)
Definition error_messages_page : list string :=
  [ "---";
    "title: Error Messages";
    "excerpt: Error Messages";
    "bottomNavigation: pagination";
    "---" ].

(** The first five lines of the schema guide's Class APIs page. *)
Definition class_apis_page : list string :=
  [ "---";
    "title: Class APIs";
    "excerpt: Class APIs";
    "bottomNavigation: pagination";
    "---" ].

(** The first five lines of the page that starts at line 195 of [content/docs/400-guides/550-scheduling/200-repetition.mdx], after a separator. *)
Definition introduction_page : list string :=
  [ "---";
    "title: Introduction";
    "excerpt: Introduction";
    "bottomNavigation: pagination";
    "---" ].

(** The first five lines of the page that starts at line 943 of [content/docs/400-guides/800-schema/700-schema-to-x/200-json-schema.mdx], after a separator. *)
Definition pretty_page : list string :=
  [ "---";
    "title: Pretty";
    "excerpt: Pretty";
    "bottomNavigation: pagination";
    "---" ].

(** The first five lines of the Projections page, which follows the Getting Started page in its file after a separator. *)
Definition projections_page : list string :=
  [ "---";
    "title: Projections";
    "excerpt: The `@effect/schema` library facilitates the extraction of `Type` or `Encoded` portions from schemas, streamlining the creation of new schemas based on old specifications.";
    "bottomNavigation: pagination";
    "---" ].

(** The first five lines of the Default Constructors page, which follows the Class APIs page in its file after a separator. *)
Definition default_constructors_page : list string :=
  [ "---";
    "title: Default Constructors";
    "excerpt: Default Constructors";
    "bottomNavigation: pagination";
    "---" ].

(** The first five lines of the Effect Data Types page, which follows the Default Constructors page in its file after a separator. *)
Definition effect_data_types_page : list string :=
  [ "---";
    "title: Effect Data Types";
    "excerpt: Effect Data Types";
    "bottomNavigation: pagination";
    "---" ].

(** The head of every documentation page: the thirteen pages of the eight
    files, a file holding the pages that follow its first one after a line
    that starts with a separator.  A page is listed by the path of its file
    and the line it starts at, or by its title where the path of the file is
    not recorded. *)
Definition documentation_pages : list (string * list string) :=
  [ ("content/docs/400-guides/550-scheduling/200-repetition.mdx:1", repetition_page);
    ("content/docs/400-guides/550-scheduling/200-repetition.mdx:195", introduction_page);
    ("content/docs/400-guides/800-schema/350-annotations.mdx:1", annotations_page);
    ("content/docs/400-guides/800-schema/450-error-formatters.mdx:1", error_formatters_page);
    ("content/docs/400-guides/800-schema/700-schema-to-x/200-json-schema.mdx:1", json_schema_page);
    ("content/docs/400-guides/800-schema/700-schema-to-x/200-json-schema.mdx:943", pretty_page);
    ("content/docs/700-other/300-data-types/redacted.mdx:1", redacted_page);
    ("Getting Started", getting_started_page);
    ("Projections", projections_page);
    ("Error Messages", error_messages_page);
    ("Class APIs", class_apis_page);
    ("Default Constructors", default_constructors_page);
    ("Effect Data Types", effect_data_types_page) ].

(** *** Front matter

    A page is its sequence of lines.  Its front matter is the block between
    a first line [---] and the next line [---]; a line [key: value] of the
    block is a field. *)

Definition delimiter : string := "---".

(** The lines before the closing delimiter; [None] when the block is never
    closed. *)
Fixpoint block_lines (ls : list string) : option (list string) :=
  match ls with
  | [] => None
  | l :: rest =>
      if String.eqb l delimiter then Some []
      else match block_lines rest with
           | Some b => Some (l :: b)
           | None => None
           end
  end.

Definition front_matter_block (page : list string) : option (list string) :=
  match page with
  | l :: rest => if String.eqb l delimiter then block_lines rest else None
  | [] => None
  end.

(** [key: value] splits at the first colon followed by a space. *)
Definition field_of_line (l : string) : option (string * string) :=
  match String.index 0 ": " l with
  | Some i => Some (String.substring 0 i l,
                    String.substring (i + 2) (String.length l - (i + 2)) l)
  | None => None
  end.

Definition front_matter (page : list string) : option (list (string * string)) :=
  match front_matter_block page with
  | Some b => Some (omap field_of_line b)
  | None => None
  end.

(** The document-structure boundary: a front matter with the three fields. *)
Definition has_structure_fields (page : list string) : bool :=
  match front_matter page with
  | Some fields =>
      match lookup_attr "title" fields, lookup_attr "excerpt" fields,
            lookup_attr "bottomNavigation" fields with
      | Some _, Some _, Some _ => true
      | _, _, _ => false
      end
  | None => false
  end.

(** The title field of a page's front matter. *)
Definition page_title (page : list string) : option string :=
  match front_matter page with
  | Some fields => lookup_attr "title" fields
  | None => None
  end.

(** ** Call sequences *)

(** The component called twice in a row with the same props. *)
Definition render_twice (cn : list JsVal -> string) (props : JsObject)
  : Eval (Element * Element) :=
  m1 ← PocketCastsIcon cn props;
  m2 ← PocketCastsIcon cn props;
  mret (m1, m2).

(** The module evaluated, then the component called. *)
Definition load_then_render (cn : list JsVal -> string) (props : JsObject)
  : Eval Element :=
  module_body ;; PocketCastsIcon cn props.

(** ** The code samples of the documentation pages

    The samples call the [effect] library.  What is embedded is the code the
    pages themselves define: callbacks and handlers, over the two data types
    of the library they build values of. *)

From Stdlib Require Import ZArith Lia.
From stdpp Require Import pretty.
Local Open Scope string_scope.

(** The numbers of the samples are JavaScript numbers that hold integers.
    They are embedded as integers, which is exact as long as the operands
    and the result of a sum lie between [- two_53] and [two_53], that is
    within 2^53 of zero: every integer of that range is a JavaScript number.
    Statements about sums that could leave the range carry the range as a
    hypothesis. *)
Definition two_53 : Z := 9007199254740992.

(** [Either.left(l)] and [Either.right(r)]. *)
Inductive Either (L R : Type) : Type :=
  | Left (l : L)
  | Right (r : R).
Arguments Left {L R} l.
Arguments Right {L R} r.

(** [Either.mapLeft(self, f)] *)
Definition mapLeft {L L' R} (self : Either L R) (f : L -> L') : Either L' R :=
  match self with
  | Left l => Left (f l)
  | Right r => Right r
  end.

(** [Either.match(self, { onLeft, onRight })] *)
Definition Either_match {L R B} (self : Either L R)
  (onLeft : L -> B) (onRight : R -> B) : B :=
  match self with
  | Left l => onLeft l
  | Right r => onRight r
  end.

(** An effect that is already decided: [Effect.succeed(a)] or
    [Effect.fail(e)]. *)
Inductive Effect (E A : Type) : Type :=
  | EffectSucceed (a : A)
  | EffectFail (e : E).
Arguments EffectSucceed {E A} a.
Arguments EffectFail {E A} e.

(** [Effect.mapBoth(self, { onFailure, onSuccess })] *)
Definition mapBoth {E E' A A'} (self : Effect E A)
  (onFailure : E -> E') (onSuccess : A -> A') : Effect E' A' :=
  match self with
  | EffectSucceed a => EffectSucceed (onSuccess a)
  | EffectFail e => EffectFail (onFailure e)
  end.

(** [new ParseResult.Type(ast, actual, message)] and
    [new ParseResult.Forbidden(ast, actual, message)]. *)
Inductive ParseIssue (AST U : Type) : Type :=
  | IssueType (ast : AST) (actual : U) (message : string)
  | IssueForbidden (ast : AST) (actual : U) (message : string).
Arguments IssueType {AST U} ast actual message.
Arguments IssueForbidden {AST U} ast actual message.

(** *** [content/docs/400-guides/550-scheduling/200-repetition.mdx] *)

Module Repetition.

(** What a sample's callbacks share: the variable [count] and the lines
    written with [console.log].  [count] starts at 0 and moves in steps of 1,
    so it is an integer; the increments are exact while [count] stays
    between [- two_53] and [two_53]. *)
Record State : Type := mkState {
  count : Z;
  console : list string
}.

(** [let count = 0], nothing logged yet. *)
Definition initial : State := mkState 0 [].

(** Lines 48-57 (again 129-138): the callback of [Effect.async], with the
    effect it hands to [resume]. *)
Definition action (s : State) : Effect string string * State :=
  if (count s >? 1)%Z then
    (EffectFail "Uh oh!", mkState (count s) (console s ++ ["failure"]))
  else
    (EffectSucceed "yay!", mkState (count s + 1) (console s ++ ["success"])).

(** Lines 145-149: the handler given to [Effect.repeatOrElse]. *)
Definition orElse (s : State) : Z * State :=
  ((count s - 1)%Z, mkState (count s) (console s ++ ["orElse"])).

(** Lines 173-176: the body of [Effect.sync].  Exact for [count] from
    [- two_53] to [two_53 - 1], where [++count] is the next integer and the
    template literal prints it in decimal digits. *)
Definition counting_action (s : State) : Z * State :=
  let c := (count s + 1)%Z in
  (c, mkState c (console s ++ ["Action called " ++ pretty c ++ " time(s)"])).

(** Line 179: [until: (n) => n === 3]. *)
Definition until (n : Z) : bool := (n =? 3)%Z.

(** A callback run [n] times in a row: its results, and the state left. *)
Fixpoint run_n {R : Type} (step : State -> R * State) (n : nat) (s : State)
  : list R * State :=
  match n with
  | O => ([], s)
  | S n' =>
      let (r, s1) := step s in
      let (rs, s2) := run_n step n' s1 in
      (r :: rs, s2)
  end.

End Repetition.

(** *** [SafeDecode], from the Getting Started page of the schema guide *)

Module SafeDecode.
Section WithSchema.

(** The input type [unknown], the decoded type of [self], the schema syntax
    trees and the parse errors of the library. *)
Context {Unknown A AST ParseError : Type}.

(** [const decodeUnknownEither = Schema.decodeUnknownEither(self)] *)
Variable decodeUnknownEither : Unknown -> Either ParseError A.

(** [ParseResult.succeed] and [ParseResult.fail] build the two sides of a
    parse result. *)
Definition succeed {U B : Type} (b : B) : Either (ParseIssue AST U) B := Right b.
Definition fail {U B : Type} (i : ParseIssue AST U) : Either (ParseIssue AST U) B := Left i.

(** The [decode] of the transformation. *)
Definition decode (input : Unknown)
  : Either (ParseIssue AST (Either Unknown A)) (Either Unknown A) :=
  succeed (mapLeft (decodeUnknownEither input) (fun _ => input)).

(** The [encode] of the transformation. *)
Definition encode (actual : Either Unknown A) (ast : AST)
  : Either (ParseIssue AST (Either Unknown A)) A :=
  Either_match actual
    (fun _ => fail (IssueForbidden ast actual "cannot encode a Left"))
    succeed.

End WithSchema.
End SafeDecode.

(** *** The class transformations of the Class APIs page *)

Module ClassApis.

(** [{ id: Schema.Number, name: Schema.String }], for integer ids. *)
Record Person : Type := mkPerson {
  id : Z;
  name : string
}.

(** [{ ...input, age }]: the fields of the input and an age, which is an
    [Option] in [PersonWithTransform] and an optional property in
    [PersonWithTransformFrom]. *)
Record PersonWithAge : Type := mkPersonWithAge {
  person : Person;
  age : option Z
}.

(** A JavaScript [Error], by its message. *)
Record Error : Type := mkError { message : string }.

(** [function getAge(id)].  Exact for an integer [id] with [id] and
    [id + 2] between [- two_53] and [two_53]. *)
Definition getAge (id : Z) : Effect Error Z :=
  EffectSucceed (id + 2)%Z.

Section WithAst.

Context {AST : Type}.

(** [Schema.String.ast] *)
Variable String_ast : AST.

(** [decode] of [PersonWithTransform]. *)
Definition PersonWithTransform_decode (input : Person)
  : Effect (ParseIssue AST Z) PersonWithAge :=
  mapBoth (getAge (id input))
    (fun e => IssueType String_ast (id input) (message e))
    (fun age => mkPersonWithAge input (Some age)).

(** [decode] of [PersonWithTransformFrom]. *)
Definition PersonWithTransformFrom_decode (input : Person)
  : Effect (ParseIssue AST Person) PersonWithAge :=
  mapBoth (getAge (id input))
    (fun e => IssueType String_ast input (message e))
    (fun age => if (age >? 18)%Z then mkPersonWithAge input (Some age)
                else mkPersonWithAge input None).

End WithAst.
End ClassApis.

(** * Properties *)

(** ** Sanity checks of the embedding *)

Example field_of_line_title :
  field_of_line "title: Class APIs" = Some ("title", "Class APIs").
Proof. reflexivity. Qed.

Example cn_joins_classes :
  Utils.cn [VString "fill-current"; VString "size-4"] = "fill-current size-4".
Proof. reflexivity. Qed.

Example cn_drops_absent :
  Utils.cn [VUndefined; VString ""; VNull; VString "a"; VBool true] = "a".
Proof. reflexivity. Qed.

Example unclosed_block_has_no_front_matter :
  has_structure_fields ["---"; "title: T"; "excerpt: E"; "bottomNavigation: n"] = false.
Proof. reflexivity. Qed.

(** ** Shared lemmas *)

(** A call of the component is one step: the element, the store as it was. *)
Lemma PocketCastsIcon_eval (cn : list JsVal -> string) (props s : JsObject) :
  PocketCastsIcon cn props s =
  (Normal (Elem "svg"
             [ ("xmlns", "http://www.w3.org/2000/svg");
               ("viewBox", "0 0 256 256");
               ("className", cn [VString "fill-current"; get props "className"]) ]
             [ Elem "path"
                 [ ("fillRule", "evenodd"); ("clipRule", "evenodd"); ("d", path_d) ]
                 [] ]),
   s).
Proof. reflexivity. Qed.

Lemma module_body_eval (s : JsObject) :
  module_body s = (Normal tt, <["displayName" := VString "PocketCastsIcon"]> s).
Proof. reflexivity. Qed.

Lemma Eval_bind_normal {A B} (m : Eval A) (f : A -> Eval B) (s s' : JsObject) (a : A) :
  m s = (Normal a, s') -> (m ≫= f) s = f a s'.
Proof.
  intros Hm. unfold mbind, Eval_bind. now rewrite Hm.
Qed.

Lemma get_insert_eq (o : JsObject) (k : string) (v : JsVal) :
  get (<[k := v]> o) k = v.
Proof. unfold get. now rewrite lookup_insert_eq. Qed.

Lemma get_empty (k : string) : get ∅ k = VUndefined.
Proof. unfold get. now rewrite lookup_empty. Qed.

(** A block closed within a prefix of the page is the block of the page. *)
Lemma block_lines_app (ls rest b : list string) :
  block_lines ls = Some b -> block_lines (ls ++ rest) = Some b.
Proof.
  revert b. induction ls as [|l ls IH]; intros b Hb; simpl in *.
  - discriminate.
  - destruct (String.eqb l delimiter); [assumption|].
    destruct (block_lines ls) as [b'|] eqn:Hls; [|discriminate].
    now rewrite (IH b' eq_refl).
Qed.

Lemma front_matter_app (head body : list string) (fields : list (string * string)) :
  front_matter head = Some fields -> front_matter (head ++ body) = Some fields.
Proof.
  unfold front_matter, front_matter_block.
  destruct head as [|l ls]; simpl; [discriminate|].
  destruct (String.eqb l delimiter); [|discriminate].
  destruct (block_lines ls) as [b|] eqn:Hls; [|discriminate].
  intros Hf. now rewrite (block_lines_app ls body b Hls).
Qed.

Lemma has_structure_fields_app (head body : list string) :
  has_structure_fields head = true -> has_structure_fields (head ++ body) = true.
Proof.
  unfold has_structure_fields.
  destruct (front_matter head) as [fields|] eqn:Hf; [|discriminate].
  now rewrite (front_matter_app head body fields Hf).
Qed.

(** ** The icon component *)

(** C1: PocketCastsIcon is deterministic and stateless.  Called with the same
    props, it gives the same markup whatever the store it runs in, it leaves
    the store as it found it, and two calls in a row return the same markup. *)
Theorem PocketCastsIcon_deterministic :
  forall (cn : list JsVal -> string) (props s1 s2 : JsObject),
    completion (PocketCastsIcon cn props s1) = completion (PocketCastsIcon cn props s2)
    /\ final_store (PocketCastsIcon cn props s1) = s1
    /\ exists m, render_twice cn props s1 = (Normal (m, m), s1).
Proof.
  intros cn props s1 s2. rewrite !PocketCastsIcon_eval.
  repeat split. eexists. unfold render_twice.
  rewrite (Eval_bind_normal _ _ _ _ _ (PocketCastsIcon_eval cn props s1)).
  rewrite (Eval_bind_normal _ _ _ _ _ (PocketCastsIcon_eval cn props s1)).
  reflexivity.
Qed.

(** C2, as stated, fails: with the class helper joining class names, the
    markup for an absent className differs from the markup for className
    "size-4". *)
Lemma PocketCastsIcon_not_constant :
  completion (PocketCastsIcon Utils.cn ∅ ∅) <>
  completion (PocketCastsIcon Utils.cn {[ "className" := VString "size-4" ]} ∅).
Proof.
  rewrite !PocketCastsIcon_eval. unfold completion; simpl fst.
  rewrite get_empty. unfold get. rewrite lookup_singleton_eq. simpl default.
  intros H. inversion H.
Qed.

(** C2, amended: the markup is constant up to the class attribute of the svg
    element.  For any two inputs the markups with the root's className
    attribute removed are the same, and the className attribute is what cn
    returns for "fill-current" and the className prop. *)
Theorem PocketCastsIcon_constant_up_to_class :
  forall (cn : list JsVal -> string) (props props' s s' : JsObject),
  exists m m',
    completion (PocketCastsIcon cn props s) = Normal m
    /\ completion (PocketCastsIcon cn props' s') = Normal m'
    /\ without_attr "className" m = without_attr "className" m'
    /\ attr "className" m = Some (cn [VString "fill-current"; get props "className"]).
Proof.
  intros cn props props' s s'. rewrite !PocketCastsIcon_eval.
  do 2 eexists. repeat split.
Qed.

(** C3: everything but the class attribute is unchanged by the input.  The
    markup is an svg element with the fixed xmlns and viewBox, its attributes
    are xmlns, viewBox and className, and its only child is a path element
    without children whose attributes are fillRule "evenodd", clipRule
    "evenodd" and the constant path data; another input changes nothing
    outside the className attribute. *)
Theorem PocketCastsIcon_frame :
  forall (cn : list JsVal -> string) (props props' s s' : JsObject),
  exists m p m',
    completion (PocketCastsIcon cn props s) = Normal m
    /\ elem_type m = "svg"
    /\ map fst (elem_attrs m) = ["xmlns"; "viewBox"; "className"]
    /\ attr "xmlns" m = Some "http://www.w3.org/2000/svg"
    /\ attr "viewBox" m = Some "0 0 256 256"
    /\ elem_children m = [p]
    /\ elem_type p = "path"
    /\ elem_attrs p = [("fillRule", "evenodd"); ("clipRule", "evenodd"); ("d", path_d)]
    /\ elem_children p = []
    /\ completion (PocketCastsIcon cn props' s') = Normal m'
    /\ without_attr "className" m' = without_attr "className" m.
Proof.
  intros cn props props' s s'. rewrite !PocketCastsIcon_eval.
  do 3 eexists. repeat split.
Qed.

(** C4: PocketCastsIcon has no error conditions.  For every props object,
    with or without a className, the call completes normally with markup,
    never throws, and leaves the store untouched. *)
Theorem PocketCastsIcon_no_error :
  forall (cn : list JsVal -> string) (props s : JsObject),
    (exists m, PocketCastsIcon cn props s = (Normal m, s))
    /\ (forall e, completion (PocketCastsIcon cn props s) <> Throw e).
Proof.
  intros cn props s. rewrite PocketCastsIcon_eval. split.
  - eexists. reflexivity.
  - intros e H. discriminate H.
Qed.

(** C5: the output depends on the props only through className.  Two props
    objects whose className reads the same give the same markup, whatever
    other properties they carry and whatever store the calls run in. *)
Theorem PocketCastsIcon_noninterference :
  forall (cn : list JsVal -> string) (props1 props2 s1 s2 : JsObject),
    get props1 "className" = get props2 "className" ->
    completion (PocketCastsIcon cn props1 s1) = completion (PocketCastsIcon cn props2 s2).
Proof.
  intros cn props1 props2 s1 s2 Hc. rewrite !PocketCastsIcon_eval.
  unfold completion; simpl fst. now rewrite Hc.
Qed.

Lemma PocketCastsIcon_noninterference_witness :
  get {[ "className" := VString "size-4"; "id" := VString "logo" ]} "className"
  = get {[ "className" := VString "size-4"; "title" := VNull ]} "className"
  /\ completion (PocketCastsIcon Utils.cn
                   {[ "className" := VString "size-4"; "id" := VString "logo" ]} ∅)
     = completion (PocketCastsIcon Utils.cn
                     {[ "className" := VString "size-4"; "title" := VNull ]}
                     {[ "displayName" := VString "PocketCastsIcon" ]}).
Proof.
  split; [vm_compute; reflexivity|].
  apply (PocketCastsIcon_noninterference Utils.cn); vm_compute; reflexivity.
Defined.

(** C6, as stated, fails: the file imports cn from the in-repo module
    @/lib/utils at run time, and the markup follows that definition: with the
    same props and the same constants, two definitions of the helper give
    different markup. *)
Lemma PocketCastsIcon_uses_in_repo_helper :
  in_repo_runtime_imports pocket_casts_imports = [mkImport ["cn"] "@/lib/utils" false]
  /\ completion (PocketCastsIcon Utils.cn ∅ ∅)
     <> completion (PocketCastsIcon (fun _ => "") ∅ ∅).
Proof.
  split; [reflexivity|].
  rewrite !PocketCastsIcon_eval. unfold completion; simpl fst.
  rewrite get_empty. intros H. inversion H.
Qed.

(** C6, amended: the only in-repo definition the component uses at run time
    is the helper cn of @/lib/utils, and the markup is determined by the
    constants of the file, the className input and the string cn returns for
    "fill-current" and className: two helpers that agree on that one call
    give the same result. *)
Theorem PocketCastsIcon_determined_by_cn_result :
  forall (cn1 cn2 : list JsVal -> string) (props s : JsObject),
    cn1 [VString "fill-current"; get props "className"]
    = cn2 [VString "fill-current"; get props "className"] ->
    PocketCastsIcon cn1 props s = PocketCastsIcon cn2 props s
    /\ map import_from (in_repo_runtime_imports pocket_casts_imports) = ["@/lib/utils"]
    /\ map import_names (in_repo_runtime_imports pocket_casts_imports) = [["cn"]].
Proof.
  intros cn1 cn2 props s Hcn. rewrite !PocketCastsIcon_eval, Hcn.
  repeat split.
Qed.

Lemma PocketCastsIcon_determined_by_cn_result_witness :
  Utils.cn [VString "fill-current"; get {[ "className" := VString "size-4" ]} "className"]
  = (fun _ => "fill-current size-4")
      [VString "fill-current"; get {[ "className" := VString "size-4" ]} "className"]
  /\ PocketCastsIcon Utils.cn {[ "className" := VString "size-4" ]} ∅
     = PocketCastsIcon (fun _ => "fill-current size-4") {[ "className" := VString "size-4" ]} ∅.
Proof.
  split; [vm_compute; reflexivity|].
  apply (PocketCastsIcon_determined_by_cn_result
           Utils.cn (fun _ => "fill-current size-4")
           {[ "className" := VString "size-4" ]} ∅).
  vm_compute; reflexivity.
Defined.

(** C8: without a className the class attribute of the svg element is exactly
    "fill-current": the helper, given the base class and undefined, returns
    the base class alone. *)
Theorem PocketCastsIcon_default_class :
  forall (props s : JsObject),
    get props "className" = VUndefined ->
    Utils.cn [VString "fill-current"; get props "className"] = "fill-current"
    /\ exists m,
         completion (PocketCastsIcon Utils.cn props s) = Normal m
         /\ attr "className" m = Some "fill-current".
Proof.
  intros props s Hc. rewrite PocketCastsIcon_eval, Hc. split; [reflexivity|].
  eexists. split; reflexivity.
Qed.

Lemma PocketCastsIcon_default_class_witness :
  get ∅ "className" = VUndefined
  /\ Utils.cn [VString "fill-current"; get ∅ "className"] = "fill-current"
  /\ exists m,
       completion (PocketCastsIcon Utils.cn ∅ ∅) = Normal m
       /\ attr "className" m = Some "fill-current".
Proof.
  split; [vm_compute; reflexivity|].
  apply (PocketCastsIcon_default_class ∅ ∅). vm_compute; reflexivity.
Defined.

(** C9: the module's assignment sets displayName of PocketCastsIcon to
    "PocketCastsIcon" and changes no other property, and the markup the
    component returns is the same before and after it, for every input. *)
Theorem displayName_only_mutation :
  forall (cn : list JsVal -> string) (props s : JsObject),
    module_body s = (Normal tt, <["displayName" := VString "PocketCastsIcon"]> s)
    /\ get (final_store (module_body s)) "displayName" = VString "PocketCastsIcon"
    /\ delete "displayName" (final_store (module_body s)) = delete "displayName" s
    /\ completion (PocketCastsIcon cn props (final_store (module_body s)))
       = completion (PocketCastsIcon cn props s)
    /\ load_then_render cn props s
       = (completion (PocketCastsIcon cn props s), final_store (module_body s)).
Proof.
  intros cn props s. rewrite module_body_eval. unfold final_store; simpl snd.
  split; [reflexivity|]. split; [apply get_insert_eq|].
  split; [apply delete_insert_eq|]. split; [now rewrite !PocketCastsIcon_eval|].
  unfold load_then_render.
  rewrite (Eval_bind_normal _ _ _ _ _ (module_body_eval s)).
  now rewrite !PocketCastsIcon_eval.
Qed.

(** ** The documentation pages *)

(** C7: every documentation page begins with a front-matter block delimited
    by [---] lines that holds a title, an excerpt and a bottomNavigation
    field, whatever text follows the block.  The pages are the thirteen of
    the repository, by their titles. *)
Theorem documentation_pages_front_matter :
  map (fun page => page_title (snd page)) documentation_pages
  = [ Some "Repetition"; Some "Introduction"; Some "Annotations";
      Some "Error Formatters"; Some "JSON Schema"; Some "Pretty";
      Some "Redacted"; Some "Getting Started"; Some "Projections";
      Some "Error Messages"; Some "Class APIs"; Some "Default Constructors";
      Some "Effect Data Types" ]
  /\ Forall (fun page =>
               forall body : list string,
                 hd_error (snd page ++ body) = Some delimiter
                 /\ has_structure_fields (snd page ++ body) = true)
            documentation_pages.
Proof.
  split; [vm_compute; reflexivity|].
  unfold documentation_pages.
  repeat (constructor;
          [intros body; split;
           [reflexivity | apply has_structure_fields_app; vm_compute; reflexivity]|]).
  constructor.
Qed.

(** ** The samples of the repetition page *)

Lemma run_n_S {R : Type} (step : Repetition.State -> R * Repetition.State)
    (n : nat) (s : Repetition.State) :
  Repetition.run_n step (S n) s =
  (fst (step s) :: fst (Repetition.run_n step n (snd (step s))),
   snd (Repetition.run_n step n (snd (step s)))).
Proof.
  simpl. destruct (step s) as [r s1]. simpl.
  now destruct (Repetition.run_n step n s1).
Qed.

Lemma run_n_app {R : Type} (step : Repetition.State -> R * Repetition.State)
    (n m : nat) (s : Repetition.State) :
  Repetition.run_n step (n + m) s =
  ((fst (Repetition.run_n step n s)
      ++ fst (Repetition.run_n step m (snd (Repetition.run_n step n s))))%list,
   snd (Repetition.run_n step m (snd (Repetition.run_n step n s)))).
Proof.
  revert s. induction n as [|n IH]; intros s.
  - simpl. now destruct (Repetition.run_n step m s).
  - change (S n + m) with (S (n + m)). rewrite !run_n_S, IH. reflexivity.
Qed.

(** Once [count] is above 1 every run fails and only the console grows. *)
Lemma action_saturated_runs (n : nat) (s : Repetition.State) :
  (1 < Repetition.count s)%Z ->
  Repetition.run_n Repetition.action n s =
  (repeat (EffectFail "Uh oh!") n,
   Repetition.mkState (Repetition.count s)
     (Repetition.console s ++ repeat "failure" n)).
Proof.
  revert s. induction n as [|n IH]; intros s Hs.
  - simpl. rewrite app_nil_r. now destruct s.
  - assert (Hact : Repetition.action s =
                   (EffectFail "Uh oh!",
                    Repetition.mkState (Repetition.count s)
                      (Repetition.console s ++ ["failure"]))).
    { unfold Repetition.action.
      now replace (Repetition.count s >? 1)%Z with true
        by (symmetry; apply Z.gtb_lt; lia). }
    rewrite run_n_S, Hact. simpl fst; simpl snd.
    rewrite IH by (simpl; exact Hs).
    simpl. now rewrite <- app_assoc.
Qed.

(** From the initial state: two successes, then the saturated state. *)
Lemma action_runs_after_two (k : nat) :
  Repetition.run_n Repetition.action (2 + k) Repetition.initial =
  (([EffectSucceed "yay!"; EffectSucceed "yay!"] ++ repeat (EffectFail "Uh oh!") k)%list,
   Repetition.mkState 2 (["success"; "success"] ++ repeat "failure" k)).
Proof.
  rewrite run_n_app.
  change (Repetition.run_n Repetition.action 2 Repetition.initial)
    with ([@EffectSucceed string string "yay!"; EffectSucceed "yay!"],
          Repetition.mkState 2 ["success"; "success"]).
  simpl fst; simpl snd. rewrite action_saturated_runs by (simpl; lia).
  reflexivity.
Qed.

(** X1: [count] saturates at 2.  From any state with [count] at most 2 (and
    not below -2^53, so that the increments are exact), after [n] runs of the
    action [count] is the smaller of [count + n] and 2, so it never passes
    2. *)
Theorem action_count_saturates :
  forall (n : nat) (s : Repetition.State),
    (- two_53 <= Repetition.count s <= 2)%Z ->
    Repetition.count (snd (Repetition.run_n Repetition.action n s))
    = Z.min (Repetition.count s + Z.of_nat n) 2.
Proof.
  unfold two_53. induction n as [|n IH]; intros s Hs.
  - simpl. lia.
  - rewrite run_n_S. simpl snd.
    assert (Hstep : (Repetition.count (snd (Repetition.action s)) <= 2)%Z
                    /\ (Repetition.count s + Z.of_nat (S n) <= 2 ->
                        Repetition.count (snd (Repetition.action s))
                        = Repetition.count s + 1)%Z
                    /\ (Repetition.count s <= Repetition.count (snd (Repetition.action s))
                        <= Repetition.count s + 1)%Z
                    /\ (Repetition.count s < 2 ->
                        Repetition.count (snd (Repetition.action s))
                        = Repetition.count s + 1)%Z).
    { unfold Repetition.action.
      destruct (Z.gtb_spec (Repetition.count s) 1); simpl; lia. }
    destruct Hstep as (H2 & Hsmall & Hmono & Hlt).
    rewrite IH by lia. lia.
Qed.

Lemma action_count_saturates_witness :
  (- two_53 <= Repetition.count (Repetition.mkState (-1) ["start"]) <= 2)%Z
  /\ Repetition.count
       (snd (Repetition.run_n Repetition.action 5
               (Repetition.mkState (-1) ["start"])))
     = Z.min (Repetition.count (Repetition.mkState (-1) ["start"]) + Z.of_nat 5) 2.
Proof.
  split; [vm_compute; split; discriminate|].
  apply (action_count_saturates 5 (Repetition.mkState (-1) ["start"])).
  vm_compute; split; discriminate.
Defined.

(** X2: run [n] times from [count = 0], the action succeeds with "yay!" on the
    first two runs and fails with "Uh oh!" on every later one; the console
    shows "success" twice and then "failure" once per failed run. *)
Theorem action_succeeds_twice_then_fails :
  forall n : nat,
    Repetition.run_n Repetition.action n Repetition.initial =
    ((repeat (EffectSucceed "yay!") (Nat.min n 2)
        ++ repeat (EffectFail "Uh oh!") (n - 2))%list,
     Repetition.mkState (Z.of_nat (Nat.min n 2))
       (repeat "success" (Nat.min n 2) ++ repeat "failure" (n - 2))).
Proof.
  intros [|[|[|k]]]; try reflexivity.
  change (S (S (S k))) with (2 + S k). rewrite action_runs_after_two.
  reflexivity.
Qed.

(** X3: a failure is permanent.  After a run that failed, every further run
    fails with "Uh oh!" and [count] stays what it was before the failure. *)
Theorem action_failure_is_permanent :
  forall (s : Repetition.State) (e : string) (n : nat),
    fst (Repetition.action s) = EffectFail e ->
    e = "Uh oh!"
    /\ fst (Repetition.run_n Repetition.action n (snd (Repetition.action s)))
       = repeat (EffectFail "Uh oh!") n
    /\ Repetition.count
         (snd (Repetition.run_n Repetition.action n (snd (Repetition.action s))))
       = Repetition.count s.
Proof.
  intros s e n He.
  assert (Hgt : (1 < Repetition.count s)%Z).
  { unfold Repetition.action in He.
    destruct (Z.gtb_spec (Repetition.count s) 1); [assumption | discriminate]. }
  assert (Hact : Repetition.action s =
                 (EffectFail "Uh oh!",
                  Repetition.mkState (Repetition.count s)
                    (Repetition.console s ++ ["failure"]))).
  { unfold Repetition.action.
    now replace (Repetition.count s >? 1)%Z with true
      by (symmetry; apply Z.gtb_lt; lia). }
  rewrite Hact in He |- *. simpl in He. simpl snd.
  rewrite action_saturated_runs by (simpl; exact Hgt). simpl.
  repeat split. congruence.
Qed.

Lemma action_failure_is_permanent_witness :
  fst (Repetition.action (Repetition.mkState 2 [])) = EffectFail "Uh oh!"
  /\ "Uh oh!" = "Uh oh!"
  /\ fst (Repetition.run_n Repetition.action 4
            (snd (Repetition.action (Repetition.mkState 2 []))))
     = repeat (EffectFail "Uh oh!") 4
  /\ Repetition.count
       (snd (Repetition.run_n Repetition.action 4
               (snd (Repetition.action (Repetition.mkState 2 [])))))
     = Repetition.count (Repetition.mkState 2 []).
Proof.
  split; [reflexivity|].
  apply (action_failure_is_permanent (Repetition.mkState 2 []) "Uh oh!" 4).
  reflexivity.
Defined.

(** X4: the handler of repeatOrElse reports one repetition.  Whenever the last
    of [n] runs from [count = 0] failed, the handler run next returns 1 and
    adds the line "orElse" to the console. *)
Theorem orElse_reports_one_repetition :
  forall (n : nat) (e : string),
    last (fst (Repetition.run_n Repetition.action n Repetition.initial))
    = Some (EffectFail e) ->
    fst (Repetition.orElse
           (snd (Repetition.run_n Repetition.action n Repetition.initial)))
    = 1%Z
    /\ last (Repetition.console
               (snd (Repetition.orElse
                       (snd (Repetition.run_n Repetition.action n Repetition.initial)))))
       = Some "orElse".
Proof.
  intros [|[|[|k]]] e; try discriminate.
  change (S (S (S k))) with (2 + S k). rewrite action_runs_after_two.
  intros _. unfold Repetition.orElse.
  cbn [fst snd Repetition.count Repetition.console].
  split; [reflexivity|]. apply last_snoc.
Qed.

Lemma orElse_reports_one_repetition_witness :
  last (fst (Repetition.run_n Repetition.action 3 Repetition.initial))
  = Some (EffectFail "Uh oh!")
  /\ fst (Repetition.orElse
            (snd (Repetition.run_n Repetition.action 3 Repetition.initial)))
     = 1%Z
  /\ last (Repetition.console
             (snd (Repetition.orElse
                     (snd (Repetition.run_n Repetition.action 3 Repetition.initial)))))
     = Some "orElse".
Proof.
  split; [reflexivity|].
  apply (orElse_reports_one_repetition 3 "Uh oh!"). reflexivity.
Defined.

(** X5: the counting action, run [n] times from a state whose [count] is not
    below -2^53 and stays within 2^53 over the [n] runs, returns the next [n]
    integers after [count], leaves [count] advanced by [n], and logs one line
    "Action called k time(s)" per run, with the value that run returned. *)
Theorem counting_action_results :
  forall (n : nat) (s : Repetition.State),
    (- two_53 <= Repetition.count s)%Z ->
    (Repetition.count s + Z.of_nat n <= two_53)%Z ->
    Repetition.run_n Repetition.counting_action n s =
    (map (fun k => (Repetition.count s + Z.of_nat k)%Z) (seq 1 n),
     Repetition.mkState (Repetition.count s + Z.of_nat n)
       (Repetition.console s
          ++ map (fun k => "Action called "
                           ++ pretty (Repetition.count s + Z.of_nat k)%Z
                           ++ " time(s)")
                 (seq 1 n))).
Proof.
  intros n s _ _. revert s.
  induction n as [|n IH]; intros s.
  - simpl. rewrite app_nil_r, Z.add_0_r. now destruct s.
  - rewrite run_n_S. unfold Repetition.counting_action.
    cbn [fst snd]. rewrite IH. cbn [fst snd Repetition.count Repetition.console].
    rewrite <- app_assoc.
    change (seq 1 (S n)) with (1%nat :: seq 2 n).
    rewrite <- (seq_shift n 1), !map_cons, !map_map.
    change (Z.of_nat 1) with 1%Z. cbn [app].
    rewrite (map_ext (fun k => (Repetition.count s + 1 + Z.of_nat k)%Z)
                     (fun k => (Repetition.count s + Z.of_nat (S k))%Z))
      by (intros k; lia).
    rewrite (map_ext
               (fun k => "Action called "
                         ++ pretty (Repetition.count s + 1 + Z.of_nat k)%Z
                         ++ " time(s)")
               (fun k => "Action called "
                         ++ pretty (Repetition.count s + Z.of_nat (S k))%Z
                         ++ " time(s)")).
    + now replace (Repetition.count s + 1 + Z.of_nat n)%Z
        with (Repetition.count s + Z.of_nat (S n))%Z by lia.
    + intros k.
      now replace (Repetition.count s + 1 + Z.of_nat k)%Z
        with (Repetition.count s + Z.of_nat (S k))%Z by lia.
Qed.

Lemma counting_action_results_witness :
  (- two_53 <= Repetition.count Repetition.initial)%Z
  /\ (Repetition.count Repetition.initial + Z.of_nat 3 <= two_53)%Z
  /\ Repetition.run_n Repetition.counting_action 3 Repetition.initial =
     (map (fun k => (Repetition.count Repetition.initial + Z.of_nat k)%Z) (seq 1 3),
      Repetition.mkState (Repetition.count Repetition.initial + Z.of_nat 3)
        (Repetition.console Repetition.initial
           ++ map (fun k => "Action called "
                            ++ pretty (Repetition.count Repetition.initial + Z.of_nat k)%Z
                            ++ " time(s)")
                  (seq 1 3))).
Proof.
  split; [vm_compute; discriminate|].
  split; [vm_compute; discriminate|].
  apply (counting_action_results 3 Repetition.initial); vm_compute; discriminate.
Defined.

(** X6: run from [count = 0], the first run whose result satisfies the
    [until] condition is the third one, with result 3; fewer than three runs
    never satisfy it. *)
Theorem until_first_holds_on_third_run :
  forall n : nat,
    list_find (fun r => Repetition.until r = true)
      (fst (Repetition.run_n Repetition.counting_action n Repetition.initial))
    = if (3 <=? n)%nat then Some (2%nat, 3%Z) else None.
Proof.
  intros [|[|[|k]]]; try (vm_compute; reflexivity).
  change (S (S (S k))) with (3 + k)%nat. rewrite run_n_app. cbn [fst].
  replace (fst (Repetition.run_n Repetition.counting_action 3 Repetition.initial))
    with [1%Z; 2%Z; 3%Z] by (vm_compute; reflexivity).
  reflexivity.
Qed.

(** ** SafeDecode *)

(** X7: decoding with SafeDecode never fails, and encoding what it decoded
    gives back the value the underlying decoder accepted, or is forbidden with
    a Left that carries the original input when the decoder rejected it. *)
Theorem SafeDecode_encode_after_decode :
  forall (Unknown A AST ParseError : Type)
         (decodeUnknownEither : Unknown -> Either ParseError A)
         (input : Unknown) (ast : AST),
  exists e : Either Unknown A,
    SafeDecode.decode (AST := AST) decodeUnknownEither input = Right e
    /\ SafeDecode.encode e ast =
       match decodeUnknownEither input with
       | Right a => Right a
       | Left _ => Left (IssueForbidden ast (Left input) "cannot encode a Left")
       end.
Proof.
  intros Unknown A AST ParseError dec input ast.
  unfold SafeDecode.decode, SafeDecode.succeed. eexists. split; [reflexivity|].
  destruct (dec input) as [err|a]; reflexivity.
Qed.

(** ** The class transformations *)

(** X8: for an integer id with id and id + 2 within 2^53 of zero, neither
    decode fails, since getAge always succeeds with id + 2.
    PersonWithTransform keeps the input and sets age to Some (id + 2);
    PersonWithTransformFrom keeps the input and sets age to id + 2 exactly
    when id is above 16, and leaves it out otherwise. *)
Theorem class_transformations_decode :
  forall (AST : Type) (String_ast : AST) (input : ClassApis.Person),
    (- two_53 <= ClassApis.id input)%Z ->
    (ClassApis.id input + 2 <= two_53)%Z ->
    ClassApis.PersonWithTransform_decode String_ast input
    = EffectSucceed
        (ClassApis.mkPersonWithAge input (Some (ClassApis.id input + 2)%Z))
    /\ ClassApis.PersonWithTransformFrom_decode String_ast input
       = EffectSucceed
           (ClassApis.mkPersonWithAge input
              (if (ClassApis.id input >? 16)%Z
               then Some (ClassApis.id input + 2)%Z else None)).
Proof.
  intros AST String_ast input _ _. split; [reflexivity|].
  unfold ClassApis.PersonWithTransformFrom_decode, ClassApis.getAge, mapBoth.
  destruct (Z.gtb_spec (ClassApis.id input + 2) 18),
           (Z.gtb_spec (ClassApis.id input) 16); try reflexivity; lia.
Qed.

Lemma class_transformations_decode_witness :
  (- two_53 <= ClassApis.id (ClassApis.mkPerson 1 "name"))%Z
  /\ (ClassApis.id (ClassApis.mkPerson 1 "name") + 2 <= two_53)%Z
  /\ ClassApis.PersonWithTransform_decode tt (ClassApis.mkPerson 1 "name")
     = EffectSucceed
         (ClassApis.mkPersonWithAge (ClassApis.mkPerson 1 "name")
            (Some (ClassApis.id (ClassApis.mkPerson 1 "name") + 2)%Z))
  /\ ClassApis.PersonWithTransformFrom_decode tt (ClassApis.mkPerson 1 "name")
     = EffectSucceed
         (ClassApis.mkPersonWithAge (ClassApis.mkPerson 1 "name")
            (if (ClassApis.id (ClassApis.mkPerson 1 "name") >? 16)%Z
             then Some (ClassApis.id (ClassApis.mkPerson 1 "name") + 2)%Z
             else None)).
Proof.
  split; [vm_compute; discriminate|].
  split; [vm_compute; discriminate|].
  apply (class_transformations_decode unit tt (ClassApis.mkPerson 1 "name"));
    vm_compute; discriminate.
Defined.
